(** * buildandrecord.py: recording the Swift compile and link commands

    A shallow embedding of [core/swift3Action/buildandrecord.py].  The
    script runs [swift build -v -c release], looks in the verbose trace
    for the compile and the link invocation, and appends a shell script
    replaying them to a fixed path.

    Conventions of the model.
    - Text is a Rocq [string].  The trace of the build tool is taken as
      7-bit text, on which Python 2's utf-8 decoding and its implicit
      ascii conversions ([print], [file.write]) are the identity.
    - [out.decode("utf-8").splitlines()] is library code: the model
      receives its result, the list of lines, or the fact that the bytes
      could not be decoded.
    - The destination directory is taken to exist and to be writable, so
      that [open(..., "a")] succeeds; [os.chmod] on a missing file raises. *)

From Stdlib Require Import ZArith NArith Ascii.
From Stdlib Require String.
From stdpp Require Import base option list strings gmap.

Local Open Scope Z_scope.

(** ** Text helpers *)

(** The two characters that the string literals below cannot hold. *)
Definition nl : string := String "010" EmptyString.
Definition dq : string := String "034" EmptyString.

(** [s.startswith(p)] *)
Definition startswith (s p : string) : bool := String.prefix p s.

(** ** Settings (lines 20-26 of the script) *)

Definition COMPILE_PREFIX : string := "/usr/bin/swiftc -module-name Action ".
Definition LINKER_PREFIX : string :=
  "/usr/bin/swiftc -Xlinker '-rpath=$ORIGIN' '-L/swift3Action/spm-build/.build/release' -o '/swift3Action/spm-build/.build/release/Action'".
Definition GENERATED_BUILD_SCRIPT : string :=
  "/swift3Action/spm-build/swiftbuildandlink.sh".
Definition SPM_DIRECTORY : string := "/swift3Action/spm-build".
Definition BUILD_COMMAND : list string :=
  ["swift"; "build"; "-v"; "-c"; "release"].

(** ** The extraction loop (lines 34-47) *)

Module Extractor.

(** The two loop variables [compileCommand] and [linkCommand];
    [None] is Python's [None]. *)
Record vars := Vars {
  compileCommand : option string;
  linkCommand : option string
}.

Definition initial : vars :=
  {| compileCommand := None; linkCommand := None |}.

(** One iteration of the [for] loop. *)
Definition body (v : vars) (instruction : string) : vars :=
  if startswith instruction COMPILE_PREFIX then
    let compileCommand := instruction in
    (* add flag to quiet warnings *)
    let compileCommand := compileCommand +:+ " -suppress-warnings" in
    {| compileCommand := Some compileCommand; linkCommand := linkCommand v |}
  else if startswith instruction LINKER_PREFIX then
    {| compileCommand := compileCommand v; linkCommand := Some instruction |}
  else v.

(** [for instruction in buildInstructions: ...] *)
Definition extract (buildInstructions : list string) : vars :=
  fold_left body buildInstructions initial.

End Extractor.

Import Extractor.

Definition is_compile (l : string) : bool := startswith l COMPILE_PREFIX.
Definition is_link (l : string) : bool := startswith l LINKER_PREFIX.
Definition add_flag (l : string) : string := l +:+ " -suppress-warnings".

(** ** The world the script runs in *)

(** A regular file: its bytes and its permission bits. *)
Record file := File { content : string; mode : N }.

(** What the script asks of its environment, in program order. *)
Inductive event :=
| EvPrint (line : string)
| EvCheckOutput (argv : list string) (cwd : string)
| EvOpenAppend (path : string)
| EvWrite (path data : string)
| EvClose (path : string)
| EvChmod (path : string) (bits : N).

Record world := World {
  files : gmap string file;
  stdout : string;
  umask : N;
  log : list event
}.

(** What [swift build] answers: its exit status, and its standard output
    as [.decode("utf-8").splitlines()] sees it. *)
Inductive captured :=
| Lines (buildInstructions : list string)
| Undecodable.

Record process := Process { returncode : Z; output : captured }.

Inductive exn :=
| SystemExit (code : Z)
| CalledProcessError (status : Z)
| UnicodeDecodeError
| OSError (path : string).

Inductive result (A : Type) :=
| Val (a : A)
| Exc (e : exn).
Arguments Val {A} a.
Arguments Exc {A} e.

(** ** A state and exception monad for the script *)

Definition M (A : Type) : Type := world -> result A * world.

Definition ret {A} (a : A) : M A := fun w => (Val a, w).

Definition raise {A} (e : exn) : M A := fun w => (Exc e, w).

Definition bind {A B} (m : M A) (k : A -> M B) : M B :=
  fun w =>
    match m w with
    | (Val a, w') => k a w'
    | (Exc e, w') => (Exc e, w')
    end.

Declare Scope py_scope.
Delimit Scope py_scope with py.
Notation "x <- e1 ;; e2" := (bind e1 (fun x => e2))
  (at level 100, e1 at next level, e2 at level 200, right associativity) : py_scope.
Notation "e1 ;; e2" := (bind e1 (fun _ => e2))
  (at level 100, e2 at level 200, right associativity) : py_scope.

Definition emit (e : event) (w : world) : world :=
  {| files := files w; stdout := stdout w; umask := umask w;
     log := log w ++ [e] |}.

(** [print s]: the text and a newline on standard output. *)
Definition print (s : string) : M unit := fun w =>
  (Val tt,
   emit (EvPrint s)
     {| files := files w; stdout := stdout w +:+ s +:+ nl;
        umask := umask w; log := log w |}).

(** [subprocess.check_output]: the output when the status is zero,
    [CalledProcessError] otherwise. *)
Definition check_output (p : process) (argv : list string) (cwd : string)
  : M captured := fun w =>
  let w := emit (EvCheckOutput argv cwd) w in
  if Z.eqb (returncode p) 0 then (Val (output p), w)
  else (Exc (CalledProcessError (returncode p)), w).

(** [out.decode("utf-8").splitlines()] *)
Definition decode_splitlines (out : captured) : M (list string) :=
  match out with
  | Lines buildInstructions => ret buildInstructions
  | Undecodable => raise UnicodeDecodeError
  end.

(** File system primitives on the map of files. *)
Definition fs_open_append (mask : N) (path : string)
    (fs : gmap string file) : gmap string file :=
  match fs !! path with
  | Some _ => fs
  | None => <[path := {| content := EmptyString; mode := N.ldiff 438 mask |}]> fs
  end.

Definition fs_write (path data : string)
    (fs : gmap string file) : gmap string file :=
  alter (fun f => {| content := content f +:+ data; mode := mode f |}) path fs.

Definition fs_chmod (path : string) (bits : N)
    (fs : gmap string file) : option (gmap string file) :=
  match fs !! path with
  | Some f => Some (<[path := {| content := content f; mode := bits |}]> fs)
  | None => None
  end.

(** [open(path, "a")]: the file is created empty (mode 0666 less the
    umask) when missing and left as it is otherwise; the handle is the
    path. *)
Definition open_append (path : string) : M string := fun w =>
  (Val path,
   emit (EvOpenAppend path)
     {| files := fs_open_append (umask w) path (files w);
        stdout := stdout w; umask := umask w; log := log w |}).

(** [handle.write(data)]: the bytes go to the end of the file. *)
Definition write (handle data : string) : M unit := fun w =>
  (Val tt,
   emit (EvWrite handle data)
     {| files := fs_write handle data (files w);
        stdout := stdout w; umask := umask w; log := log w |}).

Definition close (handle : string) : M unit := fun w =>
  (Val tt, emit (EvClose handle) w).

(** [with open(path, "a") as h: body]: the handle is closed whether or
    not the body raises. *)
Definition with_open_append {A} (path : string) (body : string -> M A) : M A :=
  fun w =>
    match open_append path w with
    | (Val h, w1) =>
        let '(r, w2) := body h w1 in
        let '(_, w3) := close h w2 in
        (r, w3)
    | (Exc e, w1) => (Exc e, w1)
    end.

(** [os.chmod(path, bits)] *)
Definition chmod (path : string) (bits : N) : M unit := fun w =>
  let w := emit (EvChmod path bits) w in
  match fs_chmod path bits (files w) with
  | Some fs =>
      (Val tt, {| files := fs; stdout := stdout w; umask := umask w; log := log w |})
  | None => (Exc (OSError path), w)
  end.

(** [sys.exit(code)] *)
Definition sys_exit {A} (code : Z) : M A := raise (SystemExit code).

(** The status the interpreter hands to its parent: the argument of
    [sys.exit], 1 after an uncaught exception, 0 at the end of the
    script. *)
Definition exit_status {A} (r : result A) : Z :=
  match r with
  | Val _ => 0
  | Exc (SystemExit code) => code
  | Exc _ => 1
  end.

(** ** The script (lines 28-73) *)

Local Open Scope py_scope.

Definition main (swift_build : process) : M unit :=
  (* Build Swift package and capture step trace *)
  print "Building action" ;;
  out <- check_output swift_build BUILD_COMMAND SPM_DIRECTORY ;;
  print "action built. Decoding compile and link commands" ;;
  (* Look for compile and link commands in step trace *)
  buildInstructions <- decode_splitlines out ;;
  let found := extract buildInstructions in
  (* if found, create build script, otherwise exit with error *)
  match compileCommand found, linkCommand found with
  | Some compileCommand, Some linkCommand =>
      print ("Generated OpenWhisk Compile command: " +:+ compileCommand) ;;
      print "=========" ;;
      print ("Generated OpenWhisk Link command: " +:+ linkCommand) ;;
      with_open_append GENERATED_BUILD_SCRIPT (fun buildScript =>
        write buildScript ("#!/bin/bash" +:+ nl) ;;
        write buildScript ("echo " +:+ dq +:+ "Compiling" +:+ dq +:+ nl) ;;
        write buildScript (compileCommand +:+ nl) ;;
        write buildScript ("swiftStatus=$?" +:+ nl) ;;
        write buildScript ("echo swiftc status is $swiftStatus" +:+ nl) ;;
        write buildScript ("if [[ " +:+ dq +:+ "$swiftStatus" +:+ dq +:+ " -eq "
                           +:+ dq +:+ "0" +:+ dq +:+ " ]]; then" +:+ nl) ;;
        write buildScript ("echo " +:+ dq +:+ "Linking" +:+ dq +:+ nl) ;;
        write buildScript (linkCommand +:+ nl) ;;
        write buildScript ("else" +:+ nl) ;;
        write buildScript (">2& echo " +:+ dq +:+ "Action did not compile" +:+ dq +:+ nl) ;;
        write buildScript ("exit 1" +:+ nl) ;;
        write buildScript "fi") ;;
      chmod GENERATED_BUILD_SCRIPT 511 (* 0777 *) ;;
      sys_exit 0
  | _, _ =>
      print "Cannot generate build script: compile or link command not found" ;;
      sys_exit 1
  end.

Local Close Scope py_scope.

(** ** Reading the generated text as a shell conditional *)

(** A shell script of the shape
    [prologue; if condition; then then_branch; else else_branch; fi],
    one command per line. *)
Record conditional := Conditional {
  prologue : list string;
  condition : string;
  then_branch : list string;
  else_branch : list string
}.

Fixpoint unlines (ls : list string) : string :=
  match ls with
  | [] => EmptyString
  | l :: ls => l +:+ nl +:+ unlines ls
  end.

Definition render (c : conditional) : string :=
  unlines (prologue c)
  +:+ "if " +:+ condition c +:+ "; then" +:+ nl
  +:+ unlines (then_branch c)
  +:+ "else" +:+ nl
  +:+ unlines (else_branch c)
  +:+ "fi".

(** The twelve [buildScript.write] calls, grouped by their place in the
    conditional. *)
Definition script (compileCommand linkCommand : string) : conditional :=
  {| prologue :=
       [ "#!/bin/bash";
         "echo " +:+ dq +:+ "Compiling" +:+ dq;
         compileCommand;
         "swiftStatus=$?";
         "echo swiftc status is $swiftStatus" ];
     condition :=
       "[[ " +:+ dq +:+ "$swiftStatus" +:+ dq +:+ " -eq " +:+ dq +:+ "0" +:+ dq +:+ " ]]";
     then_branch := [ "echo " +:+ dq +:+ "Linking" +:+ dq; linkCommand ];
     else_branch :=
       [ ">2& echo " +:+ dq +:+ "Action did not compile" +:+ dq; "exit 1" ] |}.

(** The bytes of the destination before the run; a missing file has none. *)
Definition old_content (w : world) : string :=
  match files w !! GENERATED_BUILD_SCRIPT with
  | Some f => content f
  | None => EmptyString
  end.

(** ** What each way of ending leaves behind *)

(** [occurs needle hay]: [needle] is a substring of [hay]. *)
Definition occurs (needle hay : string) : bool :=
  match String.index 0 needle hay with
  | Some _ => true
  | None => false
  end.

(** The run of the script: the status it exits with and the world it
    leaves. *)
Definition status_of (p : process) (w : world) : Z := exit_status (fst (main p w)).
Definition world_after (p : process) (w : world) : world := snd (main p w).

(** What the run asks of its environment once both commands are found. *)
Definition success_events (cc lc : string) : list event :=
  let path := GENERATED_BUILD_SCRIPT in
  [ EvPrint "Building action";
    EvCheckOutput BUILD_COMMAND SPM_DIRECTORY;
    EvPrint "action built. Decoding compile and link commands";
    EvPrint ("Generated OpenWhisk Compile command: " +:+ cc);
    EvPrint "=========";
    EvPrint ("Generated OpenWhisk Link command: " +:+ lc);
    EvOpenAppend path;
    EvWrite path ("#!/bin/bash" +:+ nl);
    EvWrite path ("echo " +:+ dq +:+ "Compiling" +:+ dq +:+ nl);
    EvWrite path (cc +:+ nl);
    EvWrite path ("swiftStatus=$?" +:+ nl);
    EvWrite path ("echo swiftc status is $swiftStatus" +:+ nl);
    EvWrite path ("if [[ " +:+ dq +:+ "$swiftStatus" +:+ dq +:+ " -eq "
                  +:+ dq +:+ "0" +:+ dq +:+ " ]]; then" +:+ nl);
    EvWrite path ("echo " +:+ dq +:+ "Linking" +:+ dq +:+ nl);
    EvWrite path (lc +:+ nl);
    EvWrite path ("else" +:+ nl);
    EvWrite path (">2& echo " +:+ dq +:+ "Action did not compile" +:+ dq +:+ nl);
    EvWrite path ("exit 1" +:+ nl);
    EvWrite path "fi";
    EvClose path;
    EvChmod path 511 ].

Definition success_stdout (cc lc : string) : string :=
  "Building action" +:+ nl
  +:+ "action built. Decoding compile and link commands" +:+ nl
  +:+ "Generated OpenWhisk Compile command: " +:+ cc +:+ nl
  +:+ "=========" +:+ nl
  +:+ "Generated OpenWhisk Link command: " +:+ lc +:+ nl.

(** What it asks when a command is missing. *)
Definition missing_events : list event :=
  [ EvPrint "Building action";
    EvCheckOutput BUILD_COMMAND SPM_DIRECTORY;
    EvPrint "action built. Decoding compile and link commands";
    EvPrint "Cannot generate build script: compile or link command not found" ].

Definition missing_stdout : string :=
  "Building action" +:+ nl
  +:+ "action built. Decoding compile and link commands" +:+ nl
  +:+ "Cannot generate build script: compile or link command not found" +:+ nl.

(** What it asks when the build fails. *)
Definition failed_events : list event :=
  [ EvPrint "Building action"; EvCheckOutput BUILD_COMMAND SPM_DIRECTORY ].

(** ** Sample traces *)

Definition compile_line : string :=
  "/usr/bin/swiftc -module-name Action -incremental -emit-dependencies main.swift".
Definition compile_line_2 : string :=
  "/usr/bin/swiftc -module-name Action -incremental -emit-dependencies main.swift -Onone".
Definition link_line : string :=
  "/usr/bin/swiftc -Xlinker '-rpath=$ORIGIN' '-L/swift3Action/spm-build/.build/release' -o '/swift3Action/spm-build/.build/release/Action' -emit-executable main.swift.o".
Definition sample_compile_command : string :=
  compile_line +:+ " -suppress-warnings".
Definition other_line : string := "Compile Swift Module 'Action' (3 sources)".

Definition scenario_A : list string := [other_line; compile_line; link_line].
Definition scenario_B : list string := [other_line; link_line; compile_line].
Definition scenario_C : list string := [other_line; link_line].
Definition scenario_D : list string := [compile_line; compile_line_2; link_line].

Definition empty_world : world :=
  {| files := ∅; stdout := EmptyString; umask := 18; log := [] |}.

Definition swift_ok (trace : list string) : process :=
  {| returncode := 0; output := Lines trace |}.

Definition swift_failed : process :=
  {| returncode := 1; output := Lines scenario_A |}.

Definition swift_undecodable : process :=
  {| returncode := 0; output := Undecodable |}.

(** What the run asks when the output of the build cannot be decoded. *)
Definition undecodable_events : list event :=
  [ EvPrint "Building action";
    EvCheckOutput BUILD_COMMAND SPM_DIRECTORY;
    EvPrint "action built. Decoding compile and link commands" ].

(** The events that start a build. *)
Definition is_build_invocation (e : event) : bool :=
  match e with
  | EvCheckOutput _ _ => true
  | _ => false
  end.

(** A line that the loop looks at twice: it starts with one of the two
    prefixes. *)
Definition recognised (l : string) : bool := is_compile l || is_link l.

(** The four ways a run can go, by what the build answered. *)
Inductive run_shape (p : process) (w : world) : Prop :=
| RunFailed :
    returncode p <> 0 ->
    main p w =
      (Exc (CalledProcessError (returncode p)),
       {| files := files w;
          stdout := stdout w +:+ "Building action" +:+ nl;
          umask := umask w;
          log := log w ++ failed_events |}) ->
    run_shape p w
| RunUndecodable :
    returncode p = 0 ->
    output p = Undecodable ->
    main p w =
      (Exc UnicodeDecodeError,
       {| files := files w;
          stdout := stdout w +:+ "Building action" +:+ nl
                    +:+ "action built. Decoding compile and link commands" +:+ nl;
          umask := umask w;
          log := log w ++ undecodable_events |}) ->
    run_shape p w
| RunMissing (trace : list string) :
    returncode p = 0 ->
    output p = Lines trace ->
    compileCommand (extract trace) = None \/ linkCommand (extract trace) = None ->
    main p w =
      (Exc (SystemExit 1),
       {| files := files w;
          stdout := stdout w +:+ missing_stdout;
          umask := umask w;
          log := log w ++ missing_events |}) ->
    run_shape p w
| RunFound (trace : list string) (cc lc : string) :
    returncode p = 0 ->
    output p = Lines trace ->
    compileCommand (extract trace) = Some cc ->
    linkCommand (extract trace) = Some lc ->
    main p w =
      (Exc (SystemExit 0),
       {| files := <[GENERATED_BUILD_SCRIPT :=
                       {| content := old_content w +:+ render (script cc lc);
                          mode := 511 |}]> (files w);
          stdout := stdout w +:+ success_stdout cc lc;
          umask := umask w;
          log := log w ++ success_events cc lc |}) ->
    run_shape p w.

(** * Lemmas *)

(** ** Facts on prefixes *)

Lemma prefix_split (p s : string) :
  String.prefix p s = true -> exists t, s = p +:+ t.
Proof.
  revert s. induction p as [|a p IH]; intros s H.
  - exists s. reflexivity.
  - destruct s as [|b s]; simpl in H; [discriminate|].
    destruct (ascii_dec a b) as [->|]; [|discriminate].
    destruct (IH s H) as [t ->]. exists t. reflexivity.
Qed.

Lemma prefix_append (p t : string) : String.prefix p (p +:+ t) = true.
Proof.
  induction p as [|a p IH]; simpl.
  - destruct t; reflexivity.
  - destruct (ascii_dec a a); [exact IH|congruence].
Qed.

(** The two recognition prefixes part at their eighteenth character, so
    no line starts with both. *)
Lemma compile_not_link (l : string) : is_compile l = true -> is_link l = false.
Proof.
  unfold is_compile, is_link, startswith. intros H.
  destruct (prefix_split _ _ H) as [t ->]. reflexivity.
Qed.

Lemma link_not_compile (l : string) : is_link l = true -> is_compile l = false.
Proof.
  intros H. destruct (is_compile l) eqn:E; [|reflexivity].
  apply compile_not_link in E. congruence.
Qed.

Lemma append_assoc (a b c : string) : (a +:+ b) +:+ c = a +:+ (b +:+ c).
Proof.
  induction a as [|x a IH]; [reflexivity|].
  change (String x ((a +:+ b) +:+ c) = String x (a +:+ b +:+ c)).
  now f_equal.
Qed.

(** ** The extraction loop keeps the last match of each kind *)

Lemma extract_snoc (trace : list string) (l : string) :
  extract (trace ++ [l]) = body (extract trace) l.
Proof. unfold extract. now rewrite fold_left_app. Qed.

Lemma extract_last (trace : list string) :
  compileCommand (extract trace) = add_flag <$> last (List.filter is_compile trace)
  /\ linkCommand (extract trace) = last (List.filter is_link trace).
Proof.
  induction trace as [|l trace [IHc IHl]] using rev_ind; [now split|].
  rewrite extract_snoc, !List.filter_app. unfold body. simpl.
  fold (is_compile l). fold (is_link l).
  destruct (is_compile l) eqn:Ec.
  - rewrite (compile_not_link l Ec), app_nil_r, last_snoc. now split.
  - destruct (is_link l) eqn:El; simpl.
    + rewrite app_nil_r, last_snoc. now split.
    + rewrite !app_nil_r. now split.
Qed.

Lemma extract_compile_None (trace : list string) :
  List.filter is_compile trace = [] -> compileCommand (extract trace) = None.
Proof. intros H. now rewrite (proj1 (extract_last trace)), H. Qed.

Lemma extract_link_None (trace : list string) :
  List.filter is_link trace = [] -> linkCommand (extract trace) = None.
Proof. intros H. now rewrite (proj2 (extract_last trace)), H. Qed.

(** ** The file system primitives on the destination *)

Lemma fs_open_append_insert (mask : N) (path : string) (fs : gmap string file) :
  fs_open_append mask path fs =
  <[path := {| content := match fs !! path with Some f => content f | None => EmptyString end;
               mode := match fs !! path with Some f => mode f | None => N.ldiff 438 mask end |}]> fs.
Proof.
  unfold fs_open_append. destruct (fs !! path) as [[c m]|] eqn:E; [|reflexivity].
  simpl. symmetry. now apply insert_id.
Qed.

Lemma fs_write_insert (path data c : string) (m : N) (fs : gmap string file) :
  fs_write path data (<[path := {| content := c; mode := m |}]> fs) =
  <[path := {| content := c +:+ data; mode := m |}]> fs.
Proof. unfold fs_write. now rewrite alter_insert_eq. Qed.

Lemma fs_chmod_insert (path c : string) (m bits : N) (fs : gmap string file) :
  fs_chmod path bits (<[path := {| content := c; mode := m |}]> fs) =
  Some (<[path := {| content := c; mode := bits |}]> fs).
Proof. unfold fs_chmod. now rewrite lookup_insert_eq, insert_insert_eq. Qed.

(** ** The three ways the script ends *)

Lemma main_found (p : process) (w : world) (trace : list string) (cc lc : string) :
  returncode p = 0 ->
  output p = Lines trace ->
  compileCommand (extract trace) = Some cc ->
  linkCommand (extract trace) = Some lc ->
  main p w =
  (Exc (SystemExit 0),
   {| files := <[GENERATED_BUILD_SCRIPT :=
                   {| content := old_content w +:+ render (script cc lc);
                      mode := 511 |}]> (files w);
      stdout := stdout w +:+ success_stdout cc lc;
      umask := umask w;
      log := log w ++ success_events cc lc |}).
Proof.
  intros Hrc Hout Hc Hl. destruct w as [fs out mask evs].
  unfold main.
  cbv beta iota zeta delta [bind print check_output emit files stdout umask log].
  rewrite Hrc, Hout.
  cbv beta iota zeta delta [Z.eqb decode_splitlines ret bind print emit files stdout umask log].
  rewrite Hc, Hl.
  cbv beta iota zeta delta [bind print with_open_append open_append write close
    chmod sys_exit raise emit files stdout umask log].
  rewrite fs_open_append_insert, !fs_write_insert, fs_chmod_insert.
  unfold old_content, success_stdout, success_events, render, script, unlines.
  cbv beta iota delta [files prologue condition then_branch else_branch].
  rewrite <- !app_assoc, !append_assoc.
  reflexivity.
Qed.

Lemma main_missing (p : process) (w : world) (trace : list string) :
  returncode p = 0 ->
  output p = Lines trace ->
  compileCommand (extract trace) = None \/ linkCommand (extract trace) = None ->
  main p w =
  (Exc (SystemExit 1),
   {| files := files w;
      stdout := stdout w +:+ missing_stdout;
      umask := umask w;
      log := log w ++ missing_events |}).
Proof.
  intros Hrc Hout Hnone. destruct w as [fs out mask evs].
  unfold main.
  cbv beta iota zeta delta [bind print check_output emit files stdout umask log].
  rewrite Hrc, Hout.
  cbv beta iota zeta delta [Z.eqb decode_splitlines ret bind print emit files stdout umask log].
  assert (Hbranch :
    match compileCommand (extract trace), linkCommand (extract trace) with
    | Some _, Some _ => False
    | _, _ => True
    end).
  { destruct Hnone as [-> | ->]; [exact I|].
    destruct (compileCommand (extract trace)); exact I. }
  destruct (compileCommand (extract trace)) as [cc|],
           (linkCommand (extract trace)) as [lc|];
    try contradiction;
    cbv beta iota zeta delta [bind print sys_exit raise emit files stdout umask log];
    unfold missing_stdout, missing_events;
    rewrite <- !app_assoc, !append_assoc; reflexivity.
Qed.

Lemma main_build_failed (p : process) (w : world) :
  returncode p <> 0 ->
  main p w =
  (Exc (CalledProcessError (returncode p)),
   {| files := files w;
      stdout := stdout w +:+ "Building action" +:+ nl;
      umask := umask w;
      log := log w ++ failed_events |}).
Proof.
  intros Hrc. destruct w as [fs out mask evs].
  unfold main.
  cbv beta iota zeta delta [bind print check_output emit files stdout umask log].
  destruct (Z.eqb_spec (returncode p) 0) as [E|_]; [contradiction|].
  unfold failed_events. rewrite <- !app_assoc. reflexivity.
Qed.

(** ** What the loop variables hold *)

Lemma filter_last_In (f : string -> bool) (trace : list string) (l : string) :
  last (List.filter f trace) = Some l -> In l trace /\ f l = true.
Proof.
  intros H. apply last_Some_elem_of, list_elem_of_In, List.filter_In in H.
  exact H.
Qed.

Lemma extract_compile_Some (trace : list string) (cc : string) :
  compileCommand (extract trace) = Some cc ->
  exists l, In l trace /\ is_compile l = true /\ cc = add_flag l.
Proof.
  rewrite (proj1 (extract_last trace)). intros H.
  destruct (last (List.filter is_compile trace)) as [l|] eqn:E; [|discriminate].
  simpl in H. injection H as <-.
  destruct (filter_last_In _ _ _ E) as [Hin Hl]. now exists l.
Qed.

Lemma extract_link_Some (trace : list string) (lc : string) :
  linkCommand (extract trace) = Some lc -> In lc trace /\ is_link lc = true.
Proof.
  rewrite (proj2 (extract_last trace)). apply filter_last_In.
Qed.

Lemma is_compile_add_flag (l : string) :
  is_compile l = true -> is_compile (add_flag l) = true.
Proof.
  unfold is_compile, startswith, add_flag. intros H.
  destruct (prefix_split _ _ H) as [t ->].
  rewrite append_assoc. apply prefix_append.
Qed.

Lemma extract_unique (trace : list string) (c l : string) :
  List.filter is_compile trace = [c] ->
  List.filter is_link trace = [l] ->
  extract trace = {| compileCommand := Some (add_flag c); linkCommand := Some l |}.
Proof.
  intros Hc Hl. destruct (extract_last trace) as [E1 E2].
  rewrite Hc in E1. rewrite Hl in E2.
  destruct (extract trace) as [cc lc]. simpl in E1, E2. now subst.
Qed.

Lemma filter_Permutation_bool (f : string -> bool) (t1 t2 : list string) :
  Permutation t1 t2 -> Permutation (List.filter f t1) (List.filter f t2).
Proof.
  induction 1 as [|x t1 t2 _ IH|x y t|t1 t2 t3 _ IH1 _ IH2]; simpl.
  - constructor.
  - destruct (f x); [now constructor|exact IH].
  - destruct (f x), (f y); try reflexivity. constructor.
  - now transitivity (List.filter f t2).
Qed.

Lemma old_content_after_insert (fs : gmap string file) (c : string)
    (m : N) (out : string) (mask : N) (evs : list event) :
  old_content
    {| files := <[GENERATED_BUILD_SCRIPT := {| content := c; mode := m |}]> fs;
       stdout := out; umask := mask; log := evs |} = c.
Proof. unfold old_content. cbv beta iota delta [files]. now rewrite lookup_insert_eq. Qed.

(** * The claims *)

(** C1, as the script has it: for every trace, the compile command is
    built from the last line that starts with the compile prefix, and the
    link command is the last line that starts with the link prefix; an
    earlier match is overwritten by a later one. *)
Theorem extract_keeps_last_match (trace : list string) :
  compileCommand (extract trace)
    = (fun l => l +:+ " -suppress-warnings") <$> last (List.filter is_compile trace)
  /\ linkCommand (extract trace) = last (List.filter is_link trace).
Proof. exact (extract_last trace). Qed.

(** C1, as stated, fails on a trace with two compile lines that differ in
    their trailing arguments: the first of them is not the one kept. *)
Lemma first_match_not_kept :
  head (List.filter is_compile scenario_D) = Some compile_line
  /\ (1 < length (List.filter is_compile scenario_D))%nat
  /\ compileCommand (extract scenario_D) <> Some (compile_line +:+ " -suppress-warnings")
  /\ compileCommand (extract scenario_D) = Some (compile_line_2 +:+ " -suppress-warnings").
Proof.
  split; [reflexivity|]. split; [vm_compute; lia|]. split; [|reflexivity].
  vm_compute. discriminate.
Qed.

(** C2: when no line of the trace starts with the compile prefix, or none
    starts with the link prefix, the run leaves every file as it was (no
    open, write or chmod is among its events), prints the diagnostic and
    exits with status 1. *)
Theorem missing_command_exits_1 (p : process) (w : world) (trace : list string) :
  returncode p = 0 ->
  output p = Lines trace ->
  List.filter is_compile trace = [] \/ List.filter is_link trace = [] ->
  files (world_after p w) = files w
  /\ log (world_after p w) =
       log w ++ [ EvPrint "Building action";
                  EvCheckOutput BUILD_COMMAND SPM_DIRECTORY;
                  EvPrint "action built. Decoding compile and link commands";
                  EvPrint "Cannot generate build script: compile or link command not found" ]
  /\ stdout (world_after p w) =
       stdout w +:+ "Building action" +:+ nl
       +:+ "action built. Decoding compile and link commands" +:+ nl
       +:+ "Cannot generate build script: compile or link command not found" +:+ nl
  /\ status_of p w = 1.
Proof.
  intros Hrc Hout Hnone. unfold world_after, status_of.
  rewrite (main_missing p w trace Hrc Hout).
  - repeat split; reflexivity.
  - destruct Hnone as [H|H]; [left; now apply extract_compile_None
                             |right; now apply extract_link_None].
Qed.

Lemma missing_command_exits_1_witness :
  files (world_after (swift_ok scenario_C) empty_world) = files empty_world
  /\ log (world_after (swift_ok scenario_C) empty_world) =
       log empty_world ++
                [ EvPrint "Building action";
                  EvCheckOutput BUILD_COMMAND SPM_DIRECTORY;
                  EvPrint "action built. Decoding compile and link commands";
                  EvPrint "Cannot generate build script: compile or link command not found" ]
  /\ stdout (world_after (swift_ok scenario_C) empty_world) =
       stdout empty_world +:+ "Building action" +:+ nl
       +:+ "action built. Decoding compile and link commands" +:+ nl
       +:+ "Cannot generate build script: compile or link command not found" +:+ nl
  /\ status_of (swift_ok scenario_C) empty_world = 1.
Proof.
  apply (missing_command_exits_1 (swift_ok scenario_C) empty_world scenario_C).
  - reflexivity.
  - reflexivity.
  - left. vm_compute. reflexivity.
Defined.

(** C3: when both commands are found, the text appended to the
    destination is the rendering of a shell conditional whose prologue is
    the shebang, the "Compiling" print, the compile command (flag
    included), the capture of its status and the print of that status;
    whose condition tests that status against zero; whose zero branch is
    the "Linking" print and the link command; and whose other branch is
    the error print and [exit 1].  The link command is no line of the
    prologue and no line of the other branch. *)
Theorem script_is_guarded_conditional
    (p : process) (w : world) (trace : list string) (cc lc : string) :
  returncode p = 0 ->
  output p = Lines trace ->
  compileCommand (extract trace) = Some cc ->
  linkCommand (extract trace) = Some lc ->
  let rendered :=
    {| prologue :=
         [ "#!/bin/bash";
           "echo " +:+ dq +:+ "Compiling" +:+ dq;
           cc;
           "swiftStatus=$?";
           "echo swiftc status is $swiftStatus" ];
       condition :=
         "[[ " +:+ dq +:+ "$swiftStatus" +:+ dq +:+ " -eq " +:+ dq +:+ "0" +:+ dq +:+ " ]]";
       then_branch := [ "echo " +:+ dq +:+ "Linking" +:+ dq; lc ];
       else_branch :=
         [ ">2& echo " +:+ dq +:+ "Action did not compile" +:+ dq; "exit 1" ] |} in
  old_content (world_after p w) = old_content w +:+ render rendered
  /\ (exists c, In c trace /\ is_compile c = true /\ cc = c +:+ " -suppress-warnings")
  /\ In lc (then_branch rendered)
  /\ ~ In lc (prologue rendered)
  /\ ~ In lc (else_branch rendered).
Proof.
  intros Hrc Hout Hc Hl rendered. unfold world_after.
  rewrite (main_found p w trace cc lc Hrc Hout Hc Hl).
  cbv beta iota delta [snd]. rewrite old_content_after_insert.
  destruct (extract_compile_Some trace cc Hc) as (c & Hin & Hcomp & ->).
  destruct (extract_link_Some trace lc Hl) as [_ Hlink].
  split; [reflexivity|].
  split; [now exists c|].
  split; [right; now left|].
  split.
  - intros [E|[E|[E|[E|[E|[]]]]]]; rewrite <- E in Hlink;
      try (vm_compute in Hlink; discriminate).
    apply is_compile_add_flag, compile_not_link in Hcomp. congruence.
  - intros [E|[E|[]]]; rewrite <- E in Hlink; vm_compute in Hlink; discriminate.
Qed.

Lemma script_is_guarded_conditional_witness :
  old_content (world_after (swift_ok scenario_A) empty_world)
    = old_content empty_world +:+ render (script sample_compile_command link_line)
  /\ (exists c, In c scenario_A /\ is_compile c = true
                /\ sample_compile_command = c +:+ " -suppress-warnings")
  /\ In link_line (then_branch (script sample_compile_command link_line))
  /\ ~ In link_line (prologue (script sample_compile_command link_line))
  /\ ~ In link_line (else_branch (script sample_compile_command link_line)).
Proof.
  apply (script_is_guarded_conditional (swift_ok scenario_A) empty_world scenario_A
           sample_compile_command link_line);
    reflexivity.
Defined.

(** C4, on the trace of scenario A: the line written for the error print
    is [>2& echo "Action did not compile"], followed by [exit 1]; the
    generated file holds no [>&2], the duplication of standard output onto
    standard error, anywhere. *)
Theorem error_print_is_not_redirected_to_stderr :
  In (EvWrite GENERATED_BUILD_SCRIPT
        (">2& echo " +:+ dq +:+ "Action did not compile" +:+ dq +:+ nl))
     (log (world_after (swift_ok scenario_A) empty_world))
  /\ occurs ("else" +:+ nl +:+ ">2& echo " +:+ dq +:+ "Action did not compile" +:+ dq
             +:+ nl +:+ "exit 1" +:+ nl +:+ "fi")
        (old_content (world_after (swift_ok scenario_A) empty_world)) = true
  /\ occurs ">&2" (old_content (world_after (swift_ok scenario_A) empty_world)) = false.
Proof. vm_compute. repeat split; tauto. Qed.

(** C5: when exactly one line of the trace starts with the compile prefix
    and exactly one starts with the link prefix, both commands are found:
    the link command is its line as it stands, the compile command is its
    line followed by one [" -suppress-warnings"]. *)
Theorem one_line_of_each_kind (trace : list string) (c l : string) :
  List.filter is_compile trace = [c] ->
  List.filter is_link trace = [l] ->
  extract trace =
  {| compileCommand := Some (c +:+ " -suppress-warnings"); linkCommand := Some l |}.
Proof. exact (extract_unique trace c l). Qed.

Lemma one_line_of_each_kind_witness :
  extract scenario_A =
  {| compileCommand := Some (compile_line +:+ " -suppress-warnings");
     linkCommand := Some link_line |}.
Proof.
  apply (one_line_of_each_kind scenario_A compile_line link_line); reflexivity.
Defined.

(** C6: for a trace with exactly one compile line and exactly one link
    line, every reordering of the trace, and so the exchange of the two
    lines, yields the same pair of commands. *)
Theorem extract_order_independent (t1 t2 : list string) (c l : string) :
  List.filter is_compile t1 = [c] ->
  List.filter is_link t1 = [l] ->
  Permutation t1 t2 ->
  extract t2 = extract t1.
Proof.
  intros Hc Hl Hperm.
  assert (Hc2 : List.filter is_compile t2 = [c]).
  { symmetry. apply Permutation_singleton_l. rewrite <- Hc.
    now apply filter_Permutation_bool. }
  assert (Hl2 : List.filter is_link t2 = [l]).
  { symmetry. apply Permutation_singleton_l. rewrite <- Hl.
    now apply filter_Permutation_bool. }
  now rewrite (extract_unique t1 c l), (extract_unique t2 c l).
Qed.

Lemma extract_order_independent_witness :
  extract scenario_B = extract scenario_A.
Proof.
  apply (extract_order_independent scenario_A scenario_B compile_line link_line).
  - reflexivity.
  - reflexivity.
  - apply perm_skip, perm_swap.
Defined.

(** C7: when both commands are found, what the destination held before
    the run is kept and the script follows it; no other file changes;
    and a second run on the same trace leaves the earlier bytes followed
    by the script twice. *)
Theorem script_is_appended
    (p : process) (w : world) (trace : list string) (cc lc : string) :
  returncode p = 0 ->
  output p = Lines trace ->
  compileCommand (extract trace) = Some cc ->
  linkCommand (extract trace) = Some lc ->
  content <$> files (world_after p w) !! GENERATED_BUILD_SCRIPT
    = Some (old_content w +:+ render (script cc lc))
  /\ (forall path, path <> GENERATED_BUILD_SCRIPT ->
        files (world_after p w) !! path = files w !! path)
  /\ content <$> files (world_after p (world_after p w)) !! GENERATED_BUILD_SCRIPT
    = Some (old_content w +:+ render (script cc lc) +:+ render (script cc lc)).
Proof.
  intros Hrc Hout Hc Hl. unfold world_after.
  rewrite !(main_found p _ trace cc lc Hrc Hout Hc Hl).
  cbv beta iota delta [snd files]. rewrite old_content_after_insert.
  rewrite insert_insert_eq, !lookup_insert_eq, append_assoc.
  repeat split. intros path Hne. now rewrite lookup_insert_ne.
Qed.

Lemma script_is_appended_witness :
  content <$> files (world_after (swift_ok scenario_A) empty_world) !! GENERATED_BUILD_SCRIPT
    = Some (old_content empty_world
            +:+ render (script sample_compile_command link_line))
  /\ (forall path, path <> GENERATED_BUILD_SCRIPT ->
        files (world_after (swift_ok scenario_A) empty_world) !! path
        = files empty_world !! path)
  /\ content <$> files (world_after (swift_ok scenario_A)
                          (world_after (swift_ok scenario_A) empty_world))
                  !! GENERATED_BUILD_SCRIPT
    = Some (old_content empty_world
            +:+ render (script sample_compile_command link_line)
            +:+ render (script sample_compile_command link_line)).
Proof.
  apply (script_is_appended (swift_ok scenario_A) empty_world scenario_A
           sample_compile_command link_line);
    reflexivity.
Defined.

(** C8: when both commands are found, the run opens the destination for
    appending, writes the script, closes the file and only then sets the
    mode to 0777 (511); the destination ends with the script after its
    earlier bytes and with that mode, and the exit status is 0. *)
Theorem found_writes_then_chmods_then_exits_0
    (p : process) (w : world) (trace : list string) (cc lc : string) :
  returncode p = 0 ->
  output p = Lines trace ->
  compileCommand (extract trace) = Some cc ->
  linkCommand (extract trace) = Some lc ->
  files (world_after p w) =
    <[GENERATED_BUILD_SCRIPT :=
        {| content := old_content w +:+ render (script cc lc); mode := 511 |}]> (files w)
  /\ log (world_after p w) = log w ++ success_events cc lc
  /\ (exists before,
        success_events cc lc =
        before ++ [ EvWrite GENERATED_BUILD_SCRIPT "fi";
                    EvClose GENERATED_BUILD_SCRIPT;
                    EvChmod GENERATED_BUILD_SCRIPT 511 ])
  /\ (511 = 7 * 64 + 7 * 8 + 7)%N
  /\ status_of p w = 0.
Proof.
  intros Hrc Hout Hc Hl. unfold world_after, status_of.
  rewrite (main_found p w trace cc lc Hrc Hout Hc Hl).
  cbv beta iota delta [snd fst files log exit_status].
  split; [reflexivity|]. split; [reflexivity|]. split.
  - eexists (firstn 18 (success_events cc lc)). reflexivity.
  - split; reflexivity.
Qed.

Lemma found_writes_then_chmods_then_exits_0_witness :
  files (world_after (swift_ok scenario_A) empty_world) =
    <[GENERATED_BUILD_SCRIPT :=
        {| content := old_content empty_world
                      +:+ render (script (compile_line +:+ " -suppress-warnings") link_line);
           mode := 511 |}]> (files empty_world)
  /\ log (world_after (swift_ok scenario_A) empty_world)
     = log empty_world
       ++ success_events (compile_line +:+ " -suppress-warnings") link_line
  /\ (exists before,
        success_events (compile_line +:+ " -suppress-warnings") link_line =
        before ++ [ EvWrite GENERATED_BUILD_SCRIPT "fi";
                    EvClose GENERATED_BUILD_SCRIPT;
                    EvChmod GENERATED_BUILD_SCRIPT 511 ])
  /\ (511 = 7 * 64 + 7 * 8 + 7)%N
  /\ status_of (swift_ok scenario_A) empty_world = 0.
Proof.
  apply (found_writes_then_chmods_then_exits_0 (swift_ok scenario_A) empty_world
           scenario_A (compile_line +:+ " -suppress-warnings") link_line);
    reflexivity.
Defined.

(** C9: when [swift build] exits with a status other than zero, the run
    ends at [check_output] with [CalledProcessError]: its only events are
    the first print and the one invocation of the build, every file is as
    it was, and the exit status is 1. *)
Theorem build_failure_is_fatal (p : process) (w : world) :
  returncode p <> 0 ->
  fst (main p w) = Exc (CalledProcessError (returncode p))
  /\ log (world_after p w) =
       log w ++ [ EvPrint "Building action"; EvCheckOutput BUILD_COMMAND SPM_DIRECTORY ]
  /\ files (world_after p w) = files w
  /\ stdout (world_after p w) = stdout w +:+ "Building action" +:+ nl
  /\ status_of p w = 1.
Proof.
  intros Hrc. unfold world_after, status_of.
  rewrite (main_build_failed p w Hrc). repeat split; reflexivity.
Qed.

Lemma build_failure_is_fatal_witness :
  fst (main swift_failed empty_world) = Exc (CalledProcessError (returncode swift_failed))
  /\ log (world_after swift_failed empty_world) =
       log empty_world
       ++ [ EvPrint "Building action"; EvCheckOutput BUILD_COMMAND SPM_DIRECTORY ]
  /\ files (world_after swift_failed empty_world) = files empty_world
  /\ stdout (world_after swift_failed empty_world)
     = stdout empty_world +:+ "Building action" +:+ nl
  /\ status_of swift_failed empty_world = 1.
Proof.
  apply (build_failure_is_fatal swift_failed empty_world). discriminate.
Defined.

(** C10: whenever the loop leaves a compile command, it is a line of the
    trace that starts with the compile prefix, followed by one
    [" -suppress-warnings"]: a later match replaces the stored value, it
    does not add a second flag to it. *)
Theorem compile_command_is_line_plus_flag (trace : list string) (cc : string) :
  compileCommand (extract trace) = Some cc ->
  exists l,
    In l trace
    /\ startswith l COMPILE_PREFIX = true
    /\ cc = l +:+ " -suppress-warnings".
Proof. exact (extract_compile_Some trace cc). Qed.

Lemma compile_command_is_line_plus_flag_witness :
  exists l,
    In l scenario_D
    /\ startswith l COMPILE_PREFIX = true
    /\ compile_line_2 +:+ " -suppress-warnings" = l +:+ " -suppress-warnings".
Proof.
  apply (compile_command_is_line_plus_flag scenario_D
           (compile_line_2 +:+ " -suppress-warnings")).
  reflexivity.
Defined.

(** * Every run of the script *)

Lemma main_undecodable (p : process) (w : world) :
  returncode p = 0 ->
  output p = Undecodable ->
  main p w =
  (Exc UnicodeDecodeError,
   {| files := files w;
      stdout := stdout w +:+ "Building action" +:+ nl
                +:+ "action built. Decoding compile and link commands" +:+ nl;
      umask := umask w;
      log := log w ++ undecodable_events |}).
Proof.
  intros Hrc Hout. destruct w as [fs out mask evs].
  unfold main.
  cbv beta iota zeta delta [bind print check_output emit files stdout umask log].
  rewrite Hrc, Hout.
  cbv beta iota zeta delta [Z.eqb decode_splitlines raise bind print emit files stdout umask log].
  unfold undecodable_events. rewrite <- !app_assoc, !append_assoc. reflexivity.
Qed.

Lemma main_shape (p : process) (w : world) : run_shape p w.
Proof.
  destruct (Z.eq_dec (returncode p) 0) as [Hrc|Hrc].
  - destruct (output p) as [trace|] eqn:Hout.
    + destruct (compileCommand (extract trace)) as [cc|] eqn:Hc.
      * destruct (linkCommand (extract trace)) as [lc|] eqn:Hl.
        -- eapply RunFound; eauto using main_found.
        -- eapply RunMissing; eauto using main_missing.
      * eapply RunMissing; eauto using main_missing.
    + eapply RunUndecodable; eauto using main_undecodable.
  - eapply RunFailed; eauto using main_build_failed.
Qed.

(** ** More on text and on the loop *)



Lemma vars_eq (v1 v2 : vars) :
  compileCommand v1 = compileCommand v2 ->
  linkCommand v1 = linkCommand v2 ->
  v1 = v2.
Proof. destruct v1, v2; simpl; now intros -> ->. Qed.

Lemma filter_filter_implied (f g : string -> bool) (t : list string) :
  (forall l, f l = true -> g l = true) ->
  List.filter f (List.filter g t) = List.filter f t.
Proof.
  intros Himp. induction t as [|l t IH]; [reflexivity|]. simpl.
  destruct (g l) eqn:Eg; simpl.
  - now rewrite IH.
  - destruct (f l) eqn:Ef; [|exact IH].
    apply Himp in Ef. congruence.
Qed.

Lemma filter_nonempty_In (f : string -> bool) (t : list string) :
  List.filter f t <> [] <-> exists l, In l t /\ f l = true.
Proof.
  split.
  - destruct (List.filter f t) as [|l r] eqn:E; [congruence|]. intros _.
    exists l. apply List.filter_In. rewrite E. now left.
  - intros (l & Hin & Hf) E.
    assert (Hl : In l (List.filter f t)) by now apply List.filter_In.
    rewrite E in Hl. destruct Hl.
Qed.

Lemma extract_is_Some (trace : list string) :
  (is_Some (compileCommand (extract trace))
     <-> exists l, In l trace /\ is_compile l = true)
  /\ (is_Some (linkCommand (extract trace))
     <-> exists l, In l trace /\ is_link l = true).
Proof.
  rewrite (proj1 (extract_last trace)), (proj2 (extract_last trace)).
  rewrite fmap_is_Some, <- !not_eq_None_Some, !last_None.
  split; apply filter_nonempty_In.
Qed.

(** * Further properties of the script *)

(** X1: no line starts with both recognition prefixes, so the [elif]
    never keeps a link line from being seen. *)
Theorem prefixes_exclude_each_other (l : string) :
  startswith l COMPILE_PREFIX && startswith l LINKER_PREFIX = false.
Proof.
  destruct (startswith l COMPILE_PREFIX) eqn:Hc; [|reflexivity].
  exact (compile_not_link l Hc).
Qed.

(** X2: the lines that start with neither prefix do not count: the loop
    gives the same result on the trace and on the trace without them. *)
Theorem extract_ignores_other_lines (trace : list string) :
  extract (List.filter recognised trace) = extract trace.
Proof.
  apply vars_eq.
  - rewrite (proj1 (extract_last _)), (proj1 (extract_last trace)).
    rewrite filter_filter_implied; [reflexivity|].
    intros l H. unfold recognised. now rewrite H.
  - rewrite (proj2 (extract_last _)), (proj2 (extract_last trace)).
    rewrite filter_filter_implied; [reflexivity|].
    intros l H. unfold recognised. rewrite H. apply orb_true_r.
Qed.

(** X3: on a trace made of two parts, each command comes from the second
    part when the second part has one, and from the first part otherwise. *)
Theorem extract_app (t1 t2 : list string) :
  compileCommand (extract (t1 ++ t2)) =
    match compileCommand (extract t2) with
    | Some cc => Some cc
    | None => compileCommand (extract t1)
    end
  /\ linkCommand (extract (t1 ++ t2)) =
    match linkCommand (extract t2) with
    | Some lc => Some lc
    | None => linkCommand (extract t1)
    end.
Proof.
  rewrite !(proj1 (extract_last _)), !(proj2 (extract_last _)).
  rewrite !List.filter_app, !last_app.
  split.
  - destruct (last (List.filter is_compile t2)); reflexivity.
  - destruct (last (List.filter is_link t2)); reflexivity.
Qed.

(** X4: a command is found exactly when some line of the trace starts
    with its prefix. *)
Theorem found_iff_some_line_matches (trace : list string) :
  (is_Some (compileCommand (extract trace))
     <-> exists l, In l trace /\ startswith l COMPILE_PREFIX = true)
  /\ (is_Some (linkCommand (extract trace))
     <-> exists l, In l trace /\ startswith l LINKER_PREFIX = true).
Proof. exact (extract_is_Some trace). Qed.

(** X5: the link command, when found, is a line of the trace as it
    stands, and it starts with the link prefix. *)
Theorem link_command_is_a_trace_line (trace : list string) (lc : string) :
  linkCommand (extract trace) = Some lc ->
  In lc trace /\ startswith lc LINKER_PREFIX = true.
Proof. exact (extract_link_Some trace lc). Qed.

Lemma link_command_is_a_trace_line_witness :
  In link_line scenario_B /\ startswith link_line LINKER_PREFIX = true.
Proof.
  apply (link_command_is_a_trace_line scenario_B link_line). reflexivity.
Defined.

(** X6: the exit status is 0 or 1, and it is 0 exactly when the build
    exited with 0, its output could be decoded, and the trace has a line
    with the compile prefix and a line with the link prefix. *)
Theorem exit_status_characterised (p : process) (w : world) :
  (status_of p w = 0 \/ status_of p w = 1)
  /\ (status_of p w = 0 <->
      returncode p = 0
      /\ exists trace,
           output p = Lines trace
           /\ (exists l, In l trace /\ startswith l COMPILE_PREFIX = true)
           /\ (exists l, In l trace /\ startswith l LINKER_PREFIX = true)).
Proof.
  unfold status_of.
  destruct (main_shape p w) as [Hrc E|Hrc Hout E|trace Hrc Hout Hnone E
                               |trace cc lc Hrc Hout Hc Hl E];
    rewrite E; cbv beta iota delta [fst exit_status].
  - split; [now right|]. split; [discriminate|]. intros [H _]. contradiction.
  - split; [now right|]. split; [discriminate|].
    intros (_ & trace & H & _). congruence.
  - split; [now right|]. split; [discriminate|].
    intros (_ & trace' & H & Hcl & Hll). exfalso.
    assert (trace' = trace) as -> by congruence.
    destruct (extract_is_Some trace) as [Fc Fl].
    apply Fc in Hcl. apply Fl in Hll.
    destruct Hnone as [H0|H0]; rewrite H0 in *;
      [destruct Hcl|destruct Hll]; discriminate.
  - split; [now left|]. split; [|reflexivity]. intros _.
    split; [exact Hrc|]. exists trace. split; [exact Hout|].
    destruct (extract_is_Some trace) as [Fc Fl].
    split; [apply Fc|apply Fl]; eauto.
Qed.

(** X7: when the build exits with 0 but its output cannot be decoded, the
    run ends with [UnicodeDecodeError] after the second print: no file is
    touched and the exit status is 1. *)
Theorem undecodable_output_is_fatal (p : process) (w : world) :
  returncode p = 0 ->
  output p = Undecodable ->
  fst (main p w) = Exc UnicodeDecodeError
  /\ files (world_after p w) = files w
  /\ log (world_after p w) =
       log w ++ [ EvPrint "Building action";
                  EvCheckOutput BUILD_COMMAND SPM_DIRECTORY;
                  EvPrint "action built. Decoding compile and link commands" ]
  /\ status_of p w = 1.
Proof.
  intros Hrc Hout. unfold world_after, status_of.
  rewrite (main_undecodable p w Hrc Hout). repeat split; reflexivity.
Qed.

Lemma undecodable_output_is_fatal_witness :
  fst (main swift_undecodable empty_world) = Exc UnicodeDecodeError
  /\ files (world_after swift_undecodable empty_world) = files empty_world
  /\ log (world_after swift_undecodable empty_world) =
       log empty_world
       ++ [ EvPrint "Building action";
            EvCheckOutput BUILD_COMMAND SPM_DIRECTORY;
            EvPrint "action built. Decoding compile and link commands" ]
  /\ status_of swift_undecodable empty_world = 1.
Proof.
  apply (undecodable_output_is_fatal swift_undecodable empty_world); reflexivity.
Defined.




(** X10: in every run the build is started exactly once, with the fixed
    command and directory, right after the first print; nothing the run
    does later starts it again. *)
Theorem build_is_started_exactly_once (p : process) (w : world) :
  exists rest,
    log (world_after p w) =
      log w ++ EvPrint "Building action"
            :: EvCheckOutput BUILD_COMMAND SPM_DIRECTORY :: rest
    /\ List.filter is_build_invocation rest = [].
Proof.
  unfold world_after.
  destruct (main_shape p w) as [Hrc E|Hrc Hout E|trace Hrc Hout Hnone E
                               |trace cc lc Hrc Hout Hc Hl E];
    rewrite E; cbv beta iota delta [snd log];
    eexists; (split; [reflexivity|reflexivity]).
Qed.


(** X12: when both commands are found, the run prints five lines: the two
    progress messages, the compile command, a rule, and the link
    command. *)
Theorem found_prints_both_commands
    (p : process) (w : world) (trace : list string) (cc lc : string) :
  returncode p = 0 ->
  output p = Lines trace ->
  compileCommand (extract trace) = Some cc ->
  linkCommand (extract trace) = Some lc ->
  stdout (world_after p w) =
    stdout w
    +:+ "Building action" +:+ nl
    +:+ "action built. Decoding compile and link commands" +:+ nl
    +:+ "Generated OpenWhisk Compile command: " +:+ cc +:+ nl
    +:+ "=========" +:+ nl
    +:+ "Generated OpenWhisk Link command: " +:+ lc +:+ nl.
Proof.
  intros Hrc Hout Hc Hl. unfold world_after.
  now rewrite (main_found p w trace cc lc Hrc Hout Hc Hl).
Qed.

Lemma found_prints_both_commands_witness :
  stdout (world_after (swift_ok scenario_A) empty_world) =
    stdout empty_world
    +:+ "Building action" +:+ nl
    +:+ "action built. Decoding compile and link commands" +:+ nl
    +:+ "Generated OpenWhisk Compile command: " +:+ sample_compile_command +:+ nl
    +:+ "=========" +:+ nl
    +:+ "Generated OpenWhisk Link command: " +:+ link_line +:+ nl.
Proof.
  apply (found_prints_both_commands (swift_ok scenario_A) empty_world scenario_A
           sample_compile_command link_line);
    reflexivity.
Defined.

Lemma render_twice (cc lc : string) :
  exists head rest,
    render (script cc lc) = head +:+ "fi"
    /\ render (script cc lc) = "#!/bin/bash" +:+ nl +:+ rest.
Proof.
  exists (unlines (prologue (script cc lc))
          +:+ "if " +:+ condition (script cc lc) +:+ "; then" +:+ nl
          +:+ unlines (then_branch (script cc lc))
          +:+ "else" +:+ nl
          +:+ unlines (else_branch (script cc lc))).
  exists (unlines (tail (prologue (script cc lc)))
          +:+ "if " +:+ condition (script cc lc) +:+ "; then" +:+ nl
          +:+ unlines (then_branch (script cc lc))
          +:+ "else" +:+ nl
          +:+ unlines (else_branch (script cc lc))
          +:+ "fi").
  split.
  - unfold render. now rewrite !append_assoc.
  - unfold render.
    change (unlines (prologue (script cc lc)))
      with ("#!/bin/bash" +:+ nl +:+ unlines (tail (prologue (script cc lc)))).
    now rewrite !append_assoc.
Qed.

(** X13: the last write is ["fi"] with no newline after it, so after two
    successful runs the shebang of the second script stands on the line
    of the first script's [fi]: the destination holds [fi#!/bin/bash]. *)
Theorem second_script_is_glued_to_fi
    (p : process) (w : world) (trace : list string) (cc lc : string) :
  returncode p = 0 ->
  output p = Lines trace ->
  compileCommand (extract trace) = Some cc ->
  linkCommand (extract trace) = Some lc ->
  exists before after,
    content <$> files (world_after p (world_after p w)) !! GENERATED_BUILD_SCRIPT
    = Some (before +:+ "fi#!/bin/bash" +:+ nl +:+ after).
Proof.
  intros Hrc Hout Hc Hl. unfold world_after.
  rewrite !(main_found p _ trace cc lc Hrc Hout Hc Hl).
  cbv beta iota delta [snd files]. rewrite old_content_after_insert.
  rewrite insert_insert_eq, lookup_insert_eq.
  destruct (render_twice cc lc) as (head & rest & Hhead & Hrest).
  exists (old_content w +:+ head), rest.
  rewrite Hhead at 1. rewrite Hrest.
  change ("fi#!/bin/bash" +:+ nl +:+ rest)
    with ("fi" +:+ "#!/bin/bash" +:+ nl +:+ rest).
  cbn [fmap option_fmap option_map content].
  now rewrite !append_assoc.
Qed.

Lemma second_script_is_glued_to_fi_witness :
  exists before after,
    content <$> files (world_after (swift_ok scenario_A)
                         (world_after (swift_ok scenario_A) empty_world))
                !! GENERATED_BUILD_SCRIPT
    = Some (before +:+ "fi#!/bin/bash" +:+ nl +:+ after).
Proof.
  apply (second_script_is_glued_to_fi (swift_ok scenario_A) empty_world scenario_A
           sample_compile_command link_line);
    reflexivity.
Defined.

(** X14: when both commands are found, the compile command still starts
    with the compile prefix, the link command starts with the link
    prefix, and the two are different strings. *)
Theorem found_commands_keep_their_prefixes (trace : list string) (cc lc : string) :
  compileCommand (extract trace) = Some cc ->
  linkCommand (extract trace) = Some lc ->
  startswith cc COMPILE_PREFIX = true
  /\ startswith lc LINKER_PREFIX = true
  /\ cc <> lc.
Proof.
  intros Hc Hl.
  destruct (extract_compile_Some trace cc Hc) as (c & _ & Hcomp & ->).
  destruct (extract_link_Some trace lc Hl) as [_ Hlink].
  apply is_compile_add_flag in Hcomp.
  split; [exact Hcomp|]. split; [exact Hlink|].
  intros E. apply compile_not_link in Hcomp. congruence.
Qed.

Lemma found_commands_keep_their_prefixes_witness :
  startswith sample_compile_command COMPILE_PREFIX = true
  /\ startswith link_line LINKER_PREFIX = true
  /\ sample_compile_command <> link_line.
Proof.
  apply (found_commands_keep_their_prefixes scenario_A sample_compile_command link_line);
    reflexivity.
Defined.
